(** * PostgreSQL range values: the [Range] algebra of
    [lib/sqlalchemy/dialects/postgresql/ranges.py]

    A shallow embedding of the [Range] dataclass and of its methods
    ([_contains_value], [_get_discrete_step], [_compare_edges],
    [contained_by], [contains], [overlaps], [strictly_left_of],
    [strictly_right_of], [not_extend_left_of], [not_extend_right_of],
    [adjacent_to], [union], [difference], [_stringify]), followed by the
    properties of the algebra.

    [Range] is [Generic[_T]]: the embedding is parametrised by the scalar
    type, through the class [Scalar].  Three instances are given:
    Python's [int] (unbounded integers, discrete step 1) as [Z]; an exact
    continuous numeric type (as [Decimal]), which has no discrete step, as
    [Q]; and the two together, for ranges of the one kind meeting ranges
    of the other.  The [date] branch of [_get_discrete_step] is not
    instantiated. *)

From Stdlib Require Import ZArith Bool String Ascii Lia QArith.
From Stdlib Require DecimalString.

Local Open Scope Z_scope.

(** ** Scalars *)

(** What the methods ask of a bound value: the comparisons [==], [<] and
    [<=] ([>] and [>=] are the same with the operands exchanged), the
    runtime test [isinstance(v, int)], the arithmetic with the discrete
    step ([value += step], [value - step]) and the literal [1]. *)
Class Scalar (T : Type) : Type := {
  py_eq : T -> T -> bool;
  py_lt : T -> T -> bool;
  py_le : T -> T -> bool;
  isinstance_int : T -> bool;
  py_one : T;
  py_add : T -> T -> T;
  py_sub : T -> T -> T
}.

(** [str(v)], which the f-string of [_stringify] applies to a bound. *)
Class PyStr (T : Type) : Type := {
  py_str : T -> string
}.

Definition py_gt {T} `{Scalar T} (x y : T) : bool := py_lt y x.
Definition py_ge {T} `{Scalar T} (x y : T) : bool := py_le y x.

(** The laws of a homogeneous scalar domain that the algebra relies on:
    [==] is reflexive and symmetric, [<] is asymmetric, and the values
    are either all [int] or none is (one [_T] for both ranges). *)
Class ScalarLaws (T : Type) `{Scalar T} : Prop := {
  py_eq_refl : forall x : T, py_eq x x = true;
  py_eq_sym : forall x y : T, py_eq x y = py_eq y x;
  py_lt_asym : forall x y : T, py_lt x y = true -> py_lt y x = false;
  isinstance_int_const : forall x y : T, isinstance_int x = isinstance_int y
}.

(** Python's [int]. *)
#[export] Instance int_scalar : Scalar Z := {
  py_eq := Z.eqb;
  py_lt := Z.ltb;
  py_le := Z.leb;
  isinstance_int := fun _ => true;
  py_one := 1;
  py_add := Z.add;
  py_sub := Z.sub
}.

(** [str] of an [int]: its decimal digits, after [-] when negative. *)
#[export] Instance int_str : PyStr Z := {
  py_str := fun z => DecimalString.NilZero.string_of_int (Z.to_int z)
}.

(** ** Bounds *)

(** The four bound characters.  [bounds] is
    [Literal["()", "[)", "(]", "[]"]]: its first character is a lower
    marker and its second an upper marker. *)
Inductive lower_char : Type :=
| LBracket  (* "[" *)
| LParen.   (* "(" *)

Inductive upper_char : Type :=
| RBracket  (* "]" *)
| RParen.   (* ")" *)

Inductive bound_char : Type :=
| Lo (c : lower_char)
| Up (c : upper_char).

Definition bounds_lit : Type := (lower_char * upper_char)%type.

(** The default, ["[)"]. *)
Definition default_bounds : bounds_lit := (LBracket, RParen).

Definition lower_char_eqb (a b : lower_char) : bool :=
  match a, b with
  | LBracket, LBracket | LParen, LParen => true
  | _, _ => false
  end.

Definition upper_char_eqb (a b : upper_char) : bool :=
  match a, b with
  | RBracket, RBracket | RParen, RParen => true
  | _, _ => false
  end.

Definition bound_char_eqb (a b : bound_char) : bool :=
  match a, b with
  | Lo x, Lo y => lower_char_eqb x y
  | Up x, Up y => upper_char_eqb x y
  | _, _ => false
  end.

Definition bounds_eqb (a b : bounds_lit) : bool :=
  lower_char_eqb (fst a) (fst b) && upper_char_eqb (snd a) (snd b).

(** [bound in {"[", "("}] *)
Definition in_lower_set (b : bound_char) : bool :=
  match b with Lo _ => true | Up _ => false end.

(** [bound in {"[", "]"}] *)
Definition in_inclusive_set (b : bound_char) : bool :=
  match b with
  | Lo LBracket | Up RBracket => true
  | Lo LParen | Up RParen => false
  end.

Definition ascii_of_bound (b : bound_char) : ascii :=
  match b with
  | Lo LBracket => "["%char
  | Lo LParen => "("%char
  | Up RBracket => "]"%char
  | Up RParen => ")"%char
  end.

(** The outcome of a method that may raise: [ValueError] is the
    invalid-combination error of [union] and [difference],
    [AssertionError] is the [assert False] that ends [difference]. *)
Inductive outcome (A : Type) : Type :=
| Return (a : A)
| ValueError (msg : string)
| AssertionError.

Arguments Return {A} a.
Arguments ValueError {A} msg.
Arguments AssertionError {A}.

(** ** The [Range] dataclass *)

Section RangeDef.

Context {T : Type} `{Scalar T}.

Record Range : Type := mkRange {
  lower : option T;
  upper : option T;
  bounds : bounds_lit;
  empty : bool
}.

(** [self.bounds[0]] and [self.bounds[1]] *)
Definition bounds0 (self : Range) : lower_char := fst (bounds self).
Definition bounds1 (self : Range) : upper_char := snd (bounds self).

(** [Range(None, None, empty=True)] *)
Definition empty_range : Range := mkRange None None default_bounds true.

(** [Range()], all the fields at their defaults *)
Definition Range_default : Range := mkRange None None default_bounds false.

(** The [__eq__] that [dataclasses.dataclass] generates: the tuples of
    fields are compared. *)
Definition opt_eqb (a b : option T) : bool :=
  match a, b with
  | None, None => true
  | Some x, Some y => py_eq x y
  | _, _ => false
  end.

Definition Range_eqb (a b : Range) : bool :=
  opt_eqb (lower a) (lower b) && opt_eqb (upper a) (upper b)
  && bounds_eqb (bounds a) (bounds b) && Bool.eqb (empty a) (empty b).

(** [Range.__bool__] *)
Definition Range_bool (self : Range) : bool := empty self.

(** [Range._contains_value] *)
Definition _contains_value (self : Range) (value : T) : bool :=
  if empty self then false
  else
    match lower self, upper self with
    | None, None => true
    | None, Some u =>
        match bounds1 self with
        | RParen => py_lt value u
        | RBracket => py_le value u
        end
    | Some l, None =>
        match bounds0 self with
        | LParen => py_gt value l
        | LBracket => py_ge value l
        end
    | Some l, Some u =>
        (match bounds0 self with
         | LParen => py_gt value l
         | LBracket => py_ge value l
         end)
        &&
        (match bounds1 self with
         | RParen => py_lt value u
         | RBracket => py_le value u
         end)
    end.

(** [Range._get_discrete_step]; the [datetime] and [date] tests are for
    types outside the two instances and fall to the last branch. *)
Definition opt_isinstance_int (v : option T) : bool :=
  match v with
  | Some x => isinstance_int x
  | None => false
  end.

Definition _get_discrete_step (self : Range) : option T :=
  if opt_isinstance_int (lower self) || opt_isinstance_int (upper self)
  then Some py_one
  else None.

(** The normalisation of one edge to the ['[)'] form, as done for both
    edges in [_compare_edges] when there is a step: an exclusive lower
    edge becomes inclusive one step up, an inclusive upper edge becomes
    exclusive one step up. *)
Definition normalize_edge (step : option T) (value : T)
    (is_lower_bound inc : bool) : T * bool :=
  match step with
  | Some st =>
      if is_lower_bound then
        if negb inc then (py_add value st, true) else (value, inc)
      else
        if inc then (py_add value st, false) else (value, inc)
  | None => (value, inc)
  end.

(** [Range._compare_edges] *)
Definition _compare_edges (self : Range)
    (value1 : option T) (bound1 : bound_char)
    (value2 : option T) (bound2 : bound_char)
    (only_values : bool) : Z :=
  let value1_is_lower_bound := in_lower_set bound1 in
  let value2_is_lower_bound := in_lower_set bound2 in
  match value1, value2 with
  | None, None =>
      if Bool.eqb value1_is_lower_bound value2_is_lower_bound then 0
      else if value1_is_lower_bound then -1 else 1
  | None, Some _ => if value1_is_lower_bound then -1 else 1
  | Some _, None => if value2_is_lower_bound then 1 else -1
  | Some v1, Some v2 =>
      if bound_char_eqb bound1 bound2 && py_eq v1 v2 then 0
      else
        let step := _get_discrete_step self in
        let '(v1, value1_inc) :=
          normalize_edge step v1 value1_is_lower_bound
                         (in_inclusive_set bound1) in
        let '(v2, value2_inc) :=
          normalize_edge step v2 value2_is_lower_bound
                         (in_inclusive_set bound2) in
        if py_lt v1 v2 then -1
        else if py_gt v1 v2 then 1
        else if only_values then 0
        else if value1_inc && value2_inc then 0
        else if negb value1_inc && negb value2_inc then
          if Bool.eqb value1_is_lower_bound value2_is_lower_bound then 0
          else if value1_is_lower_bound then 1 else -1
        else if negb value1_inc then
          if value1_is_lower_bound then 1 else -1
        else if negb value2_inc then
          if value2_is_lower_bound then -1 else 1
        else 0
  end.

(** [Range.contained_by] *)
Definition contained_by (self other : Range) : bool :=
  if empty self then true
  else if empty other then false
  else
    let slower := lower self in
    let slower_b := bounds0 self in
    let olower := lower other in
    let olower_b := bounds0 other in
    if _compare_edges self slower (Lo slower_b) olower (Lo olower_b) false <? 0
    then false
    else
      let supper := upper self in
      let supper_b := bounds1 self in
      let oupper := upper other in
      let oupper_b := bounds1 other in
      if _compare_edges self supper (Up supper_b) oupper (Up oupper_b) false >? 0
      then false
      else true.

(** The argument of [contains]: a scalar or a [Range]
    ([Union[_T, Range]], told apart by [isinstance(value, Range)]). *)
Inductive contains_arg : Type :=
| Value (v : T)
| Sub (r : Range).

(** [Range.contains] *)
Definition contains (self : Range) (value : contains_arg) : bool :=
  match value with
  | Sub r => contained_by r self
  | Value v => _contains_value self v
  end.

(** [Range.overlaps] *)
Definition overlaps (self other : Range) : bool :=
  if empty self || empty other then false
  else
    let slower := lower self in
    let slower_b := bounds0 self in
    let supper := upper self in
    let supper_b := bounds1 self in
    let olower := lower other in
    let olower_b := bounds0 other in
    let oupper := upper other in
    let oupper_b := bounds1 other in
    if (_compare_edges self slower (Lo slower_b) olower (Lo olower_b) false >=? 0)
       && (_compare_edges self slower (Lo slower_b) oupper (Up oupper_b) false <=? 0)
    then true
    else if (_compare_edges self olower (Lo olower_b) slower (Lo slower_b) false >=? 0)
            && (_compare_edges self olower (Lo olower_b) supper (Up supper_b) false <=? 0)
    then true
    else false.

(** [Range.strictly_left_of] *)
Definition strictly_left_of (self other : Range) : bool :=
  if empty self || empty other then false
  else
    _compare_edges self (upper self) (Up (bounds1 self))
                   (lower other) (Lo (bounds0 other)) false <? 0.

(** [Range.strictly_right_of] *)
Definition strictly_right_of (self other : Range) : bool :=
  if empty self || empty other then false
  else
    _compare_edges self (lower self) (Lo (bounds0 self))
                   (upper other) (Up (bounds1 other)) false >? 0.

(** [Range.not_extend_left_of] *)
Definition not_extend_left_of (self other : Range) : bool :=
  if empty self || empty other then false
  else
    _compare_edges self (lower self) (Lo (bounds0 self))
                   (lower other) (Lo (bounds0 other)) false >=? 0.

(** [Range.not_extend_right_of] *)
Definition not_extend_right_of (self other : Range) : bool :=
  if empty self || empty other then false
  else
    _compare_edges self (upper self) (Up (bounds1 self))
                   (upper other) (Up (bounds1 other)) false <=? 0.

(** [Range._upper_edge_adjacent_to_lower].  The values are compared and
    subtracted from under [res == -1] only, where both are finite: the
    comparison of an upper edge with a lower edge is [1] as soon as one
    of them is [None] (lemma [upper_lower_infinite]). *)
Definition _upper_edge_adjacent_to_lower (self : Range)
    (value1 : option T) (bound1 : upper_char)
    (value2 : option T) (bound2 : lower_char) : bool :=
  let res := _compare_edges self value1 (Up bound1) value2 (Lo bound2) true in
  if res =? -1 then
    match _get_discrete_step self with
    | None => false
    | Some step =>
        let value2_minus_step := option_map (fun v => py_sub v step) value2 in
        match bound1, bound2 with
        | RBracket, LBracket => opt_eqb value1 value2_minus_step
        | RBracket, LParen => opt_eqb value1 value2
        | RParen, LBracket => opt_eqb value1 value2
        | RParen, LParen => opt_eqb value1 value2_minus_step
        end
    end
  else if res =? 0 then
    match bound1, bound2 with
    | RParen, LBracket => true
    | RBracket, LParen => true
    | _, _ => false
    end
  else false.

(** [Range.adjacent_to] *)
Definition adjacent_to (self other : Range) : bool :=
  if empty self || empty other then false
  else
    let slower := lower self in
    let slower_b := bounds0 self in
    let supper := upper self in
    let supper_b := bounds1 self in
    let olower := lower other in
    let olower_b := bounds0 other in
    let oupper := upper other in
    let oupper_b := bounds1 other in
    _upper_edge_adjacent_to_lower self supper supper_b olower olower_b
    || _upper_edge_adjacent_to_lower self oupper oupper_b slower slower_b.

(** [Range.union] *)
Definition union (self other : Range) : outcome Range :=
  if empty self then Return other
  else if empty other then Return self
  else if negb (overlaps self other) && negb (adjacent_to self other) then
    ValueError "Adding non-overlapping and non-adjacent ranges is not implemented"
  else
    let slower := lower self in
    let slower_b := bounds0 self in
    let supper := upper self in
    let supper_b := bounds1 self in
    let olower := lower other in
    let olower_b := bounds0 other in
    let oupper := upper other in
    let oupper_b := bounds1 other in
    let '(rlower, rlower_b) :=
      if _compare_edges self slower (Lo slower_b) olower (Lo olower_b) false <? 0
      then (slower, slower_b)
      else (olower, olower_b) in
    let '(rupper, rupper_b) :=
      if _compare_edges self supper (Up supper_b) oupper (Up oupper_b) false >? 0
      then (supper, supper_b)
      else (oupper, oupper_b) in
    Return (mkRange rlower rupper (rlower_b, rupper_b) false).

(** [Range.difference] *)
Definition difference (self other : Range) : outcome Range :=
  if empty self || empty other then Return self
  else
    let slower := lower self in
    let slower_b := bounds0 self in
    let supper := upper self in
    let supper_b := bounds1 self in
    let olower := lower other in
    let olower_b := bounds0 other in
    let oupper := upper other in
    let oupper_b := bounds1 other in
    let sl_vs_ol :=
      _compare_edges self slower (Lo slower_b) olower (Lo olower_b) false in
    let su_vs_ou :=
      _compare_edges self supper (Up supper_b) oupper (Up oupper_b) false in
    if (sl_vs_ol <? 0) && (su_vs_ou >? 0) then
      ValueError "Subtracting a strictly inner range is not implemented"
    else
      let sl_vs_ou :=
        _compare_edges self slower (Lo slower_b) oupper (Up oupper_b) false in
      let su_vs_ol :=
        _compare_edges self supper (Up supper_b) olower (Lo olower_b) false in
      if (sl_vs_ou >? 0) || (su_vs_ol <? 0) then Return self
      else if (sl_vs_ol >=? 0) && (su_vs_ou <=? 0) then
        Return (mkRange None None default_bounds true)
      else if (sl_vs_ol <=? 0) && (su_vs_ol >=? 0) && (su_vs_ou <=? 0) then
        let rupper_b :=
          if lower_char_eqb olower_b LBracket then RParen else RBracket in
        if _compare_edges self slower (Lo slower_b) olower (Up rupper_b) false =? 0
        then Return (mkRange None None default_bounds true)
        else Return (mkRange slower olower (slower_b, rupper_b) false)
      else if (sl_vs_ol >=? 0) && (su_vs_ou >=? 0) && (sl_vs_ou <=? 0) then
        let rlower_b :=
          if upper_char_eqb oupper_b RBracket then LParen else LParen in
        if _compare_edges self oupper (Lo rlower_b) supper (Up supper_b) false =? 0
        then Return (mkRange None None default_bounds true)
        else Return (mkRange oupper supper (rlower_b, supper_b) false)
      else AssertionError.

(** [Range._stringify], which [__str__] returns *)
Definition _stringify `{PyStr T} (self : Range) : string :=
  if empty self then "empty"%string
  else
    let l := match lower self with None => ""%string | Some l => py_str l end in
    let r := match upper self with None => ""%string | Some r => py_str r end in
    let '(b0, b1) := bounds self in
    (String (ascii_of_bound (Lo b0)) "" ++ l ++ "," ++ r
     ++ String (ascii_of_bound (Up b1)) "")%string.

Definition __str__ `{PyStr T} (self : Range) : string := _stringify self.

End RangeDef.

Arguments Range T : clear implicits.
Arguments contains_arg T : clear implicits.

(** ** The two scalar domains *)

(** An exact continuous numeric type, as [Decimal]: rationals compared by
    value, never an [int], so that [_get_discrete_step] is [None]. *)
Definition Qlt_bool (x y : Q) : bool := negb (Qle_bool y x).

#[export] Instance decimal_scalar : Scalar Q := {
  py_eq := Qeq_bool;
  py_lt := Qlt_bool;
  py_le := Qle_bool;
  isinstance_int := fun _ => false;
  py_one := 1%Q;
  py_add := Qplus;
  py_sub := Qminus
}.

(** [int] and [Decimal] bounds together, which nothing in [Range]
    forbids: the comparisons are by value, [isinstance(v, int)] tells
    the two apart, and arithmetic with a [Decimal] operand gives a
    [Decimal] (taken exact, as it is within the precision of the decimal
    context). *)
Inductive number : Type :=
| PyInt (z : Z)
| PyDecimal (q : Q).

Definition number_value (n : number) : Q :=
  match n with
  | PyInt z => inject_Z z
  | PyDecimal q => q
  end.

#[export] Instance number_scalar : Scalar number := {
  py_eq := fun x y => Qeq_bool (number_value x) (number_value y);
  py_lt := fun x y => Qlt_bool (number_value x) (number_value y);
  py_le := fun x y => Qle_bool (number_value x) (number_value y);
  isinstance_int := fun x =>
    match x with PyInt _ => true | PyDecimal _ => false end;
  py_one := PyInt 1;
  py_add := fun x y =>
    match x, y with
    | PyInt a, PyInt b => PyInt (a + b)
    | _, _ => PyDecimal (number_value x + number_value y)
    end;
  py_sub := fun x y =>
    match x, y with
    | PyInt a, PyInt b => PyInt (a - b)
    | _, _ => PyDecimal (number_value x - number_value y)
    end
}.

(** [Range(lower, upper)] and [Range(lower, upper, bounds=b)] over [int] *)
Definition IntRange (l u : Z) (b : bounds_lit) : Range Z :=
  mkRange (Some l) (Some u) b false.

(** How a call ended. *)
Definition raises_ValueError {A} (o : outcome A) : bool :=
  match o with ValueError _ => true | _ => false end.


(** [call == r]: the call returned, and the value is [==] to [r]. *)
Definition returns_eq {T} `{Scalar T} (o : outcome (Range T)) (r : Range T)
  : bool :=
  match o with Return c => Range_eqb c r | _ => false end.

(** [v] is one of the two bound values of [r]. *)
Definition edge_of {T} (r : Range T) (v : option T) : Prop :=
  v = lower r \/ v = upper r.

(** ** Edge positions on the integers *)

(** The position of a finite edge once normalised to the ['[)'] form
    with the step [1]: the least integer a lower edge admits, and the
    least integer an upper edge excludes. *)
Definition lo_pos (c : lower_char) (v : Z) : Z :=
  match c with LBracket => v | LParen => v + 1 end.

Definition up_pos (c : upper_char) (v : Z) : Z :=
  match c with RBracket => v + 1 | RParen => v end.

Definition sign3 (x y : Z) : Z :=
  if x <? y then -1 else if y <? x then 1 else 0.

(** An integer of both ranges, when there is one: the greater of the
    lower positions, or else one below the lesser of the upper
    positions. *)
Definition common_point (a b : Range Z) : Z :=
  match lower a, lower b with
  | Some la, Some lb => Z.max (lo_pos (bounds0 a) la) (lo_pos (bounds0 b) lb)
  | Some la, None => lo_pos (bounds0 a) la
  | None, Some lb => lo_pos (bounds0 b) lb
  | None, None =>
      match upper a, upper b with
      | Some ua, Some ub =>
          Z.min (up_pos (bounds1 a) ua) (up_pos (bounds1 b) ub) - 1
      | Some ua, None => up_pos (bounds1 a) ua - 1
      | None, Some ub => up_pos (bounds1 b) ub - 1
      | None, None => 0
      end
  end.

(** [self] with its upper bound removed, and with its lower bound
    removed. *)
Definition upward {T} (r : Range T) : Range T :=
  mkRange (lower r) None (bounds r) (empty r).

Definition downward {T} (r : Range T) : Range T :=
  mkRange None (upper r) (bounds r) (empty r).

(** ** Proof automation *)

(** Case analysis on every test of a goal. *)
Ltac split_ifs :=
  repeat match goal with
         | |- context [if ?b then _ else _] => destruct b
         end.

(** Case analysis on the integer comparisons of a premise, innermost
    first, folding the tests of the signs [-1], [0] and [1] as they
    appear. *)
Ltac no_if t :=
  lazymatch t with
  | context [if _ then _ else _] => fail
  | _ => idtac
  end.

Ltac sign_consts :=
  change (-1 <? 0) with true; change (0 <? 0) with false;
  change (1 <? 0) with false;
  change (-1 >? 0) with false; change (0 >? 0) with false;
  change (1 >? 0) with true;
  change (-1 <=? 0) with true; change (0 <=? 0) with true;
  change (1 <=? 0) with false;
  change (-1 >=? 0) with false; change (0 >=? 0) with true;
  change (1 >=? 0) with true;
  change (-1 =? 0) with false; change (0 =? 0) with true;
  change (1 =? 0) with false;
  cbn [andb orb negb].

Ltac split_tests :=
  repeat (match goal with
          | |- ?R -> _ =>
              match R with
              | context [?p <? ?q] =>
                  no_if p; no_if q; destruct (Z.ltb_spec p q)
              | context [?p <=? ?q] =>
                  no_if p; no_if q; destruct (Z.leb_spec p q)
              | context [?p =? ?q] =>
                  no_if p; no_if q; destruct (Z.eqb_spec p q)
              end
          end; sign_consts).

Ltac premise :=
  split_tests;
  let R := fresh "R" in
  intros R; try discriminate R.

(** The same on the tests of the goal, then arithmetic, by cases on the
    bound characters if need be. *)
Ltac bound_cases :=
  repeat match goal with
         | c : lower_char |- _ => destruct c
         | c : upper_char |- _ => destruct c
         end;
  unfold lo_pos, up_pos in *.

Ltac finish :=
  repeat (match goal with
          | |- context [?p <? ?q] =>
              no_if p; no_if q; destruct (Z.ltb_spec p q)
          | |- context [?p <=? ?q] =>
              no_if p; no_if q; destruct (Z.leb_spec p q)
          | |- context [?p =? ?q] =>
              no_if p; no_if q; destruct (Z.eqb_spec p q)
          end; sign_consts);
  cbn [andb orb negb]; try reflexivity; try lia;
  bound_cases; try discriminate; lia.

(** ** The scalar instances obey the laws *)

#[export] Instance int_laws : ScalarLaws Z.
Proof.
  split; simpl; intros.
  - apply Z.eqb_refl.
  - apply Z.eqb_sym.
  - apply Z.ltb_lt in H. apply Z.ltb_ge. lia.
  - reflexivity.
Qed.

#[export] Instance decimal_laws : ScalarLaws Q.
Proof.
  split; simpl; intros.
  - apply Qeq_bool_iff. reflexivity.
  - destruct (Qeq_bool x y) eqn:E, (Qeq_bool y x) eqn:E'; try reflexivity.
    + apply Qeq_bool_iff in E. symmetry in E. apply Qeq_bool_iff in E.
      congruence.
    + apply Qeq_bool_iff in E'. symmetry in E'. apply Qeq_bool_iff in E'.
      congruence.
  - unfold Qlt_bool in *. apply negb_true_iff in H.
    apply negb_false_iff. apply Qle_bool_iff.
    destruct (Qlt_le_dec x y) as [L | L].
    + apply Qlt_le_weak. exact L.
    + apply Qle_bool_iff in L. congruence.
  - reflexivity.
Qed.

(** ** Edge comparison *)

Lemma bound_char_eqb_sym (a b : bound_char) :
  bound_char_eqb a b = bound_char_eqb b a.
Proof. destruct a as [[|]|[|]], b as [[|]|[|]]; reflexivity. Qed.

Lemma bound_char_eqb_refl (a : bound_char) : bound_char_eqb a a = true.
Proof. destruct a as [[|]|[|]]; reflexivity. Qed.

Lemma bounds_eqb_refl (b : bounds_lit) : bounds_eqb b b = true.
Proof. destruct b as [[|] [|]]; reflexivity. Qed.

Section EdgeFacts.

Context {T : Type} `{Scalar T}.

(** [_compare_edges] returns [-1], [0] or [1]. *)
Lemma compare_edges_sign (self : Range T) v1 b1 v2 b2 ov :
  let c := _compare_edges self v1 b1 v2 b2 ov in
  c = -1 \/ c = 0 \/ c = 1.
Proof.
  unfold _compare_edges, normalize_edge.
  destruct v1 as [x|], v2 as [y|], b1 as [[|]|[|]], b2 as [[|]|[|]];
    cbn [in_lower_set in_inclusive_set bound_char_eqb lower_char_eqb
         upper_char_eqb Bool.eqb negb andb];
    repeat match goal with
           | |- context [if ?b then _ else _] => destruct b
           | |- context [match ?o with Some _ => _ | None => _ end] =>
               destruct o
           end;
    cbn; auto.
Qed.

(** The discrete step is read from [self] only, and only for two finite
    edges: two ranges with the same step compare edges alike. *)
Lemma compare_edges_same_step (a b : Range T) v1 b1 v2 b2 ov :
  _get_discrete_step a = _get_discrete_step b ->
  _compare_edges a v1 b1 v2 b2 ov = _compare_edges b v1 b1 v2 b2 ov.
Proof.
  intros E. unfold _compare_edges. rewrite E. reflexivity.
Qed.

Lemma compare_edges_infinite (a b : Range T) v1 b1 v2 b2 ov :
  v1 = None \/ v2 = None ->
  _compare_edges a v1 b1 v2 b2 ov = _compare_edges b v1 b1 v2 b2 ov.
Proof.
  intros [-> | ->]; unfold _compare_edges;
    [destruct v2 | destruct v1]; reflexivity.
Qed.

Context `{!ScalarLaws T}.

(** In a homogeneous domain a range with a finite edge has the step of
    the domain. *)
Lemma step_of_finite_edge (r : Range T) (t : T) :
  edge_of r (Some t) ->
  _get_discrete_step r = if isinstance_int t then Some py_one else None.
Proof.
  unfold edge_of, _get_discrete_step.
  intros [E | E]; rewrite <- E; simpl;
    [destruct (upper r) as [u|] | destruct (lower r) as [u|]]; simpl;
    try rewrite (isinstance_int_const u t);
    destruct (isinstance_int t); reflexivity.
Qed.

(** Two ranges that each own one of two finite edges have the same
    step. *)
Lemma same_step_of_shared_edges (a b : Range T) (x y : T) :
  edge_of a (Some x) \/ edge_of a (Some y) ->
  edge_of b (Some x) \/ edge_of b (Some y) ->
  _get_discrete_step a = _get_discrete_step b.
Proof.
  intros Ha Hb.
  assert (Sa : _get_discrete_step a
               = if isinstance_int x then Some py_one else None).
  { destruct Ha as [Ha | Ha]; rewrite (step_of_finite_edge _ _ Ha);
      [| rewrite (isinstance_int_const y x)]; reflexivity. }
  assert (Sb : _get_discrete_step b
               = if isinstance_int x then Some py_one else None).
  { destruct Hb as [Hb | Hb]; rewrite (step_of_finite_edge _ _ Hb);
      [| rewrite (isinstance_int_const y x)]; reflexivity. }
  congruence.
Qed.

(** Whose method it is does not matter when the two edges come from the
    two ranges. *)
Lemma compare_edges_self_irrel (a b : Range T) v1 b1 v2 b2 ov :
  edge_of a v1 \/ edge_of a v2 ->
  edge_of b v1 \/ edge_of b v2 ->
  _compare_edges a v1 b1 v2 b2 ov = _compare_edges b v1 b1 v2 b2 ov.
Proof.
  intros Ha Hb.
  destruct v1 as [x|]; [| apply compare_edges_infinite; auto].
  destruct v2 as [y|]; [| apply compare_edges_infinite; auto].
  apply compare_edges_same_step.
  apply (same_step_of_shared_edges a b x y); assumption.
Qed.

(** An edge compares equal to itself. *)
Lemma compare_edges_refl (self : Range T) v b ov :
  _compare_edges self v b v b ov = 0.
Proof.
  unfold _compare_edges. destruct v as [x|].
  - rewrite py_eq_refl, bound_char_eqb_refl. reflexivity.
  - destruct b; reflexivity.
Qed.

(** Exchanging the two edges negates the comparison. *)
Lemma compare_edges_antisym (self : Range T) v1 b1 v2 b2 ov :
  _compare_edges self v2 b2 v1 b1 ov = - _compare_edges self v1 b1 v2 b2 ov.
Proof.
  unfold _compare_edges, py_gt.
  destruct v1 as [x|], v2 as [y|];
    try (destruct b1 as [[|]|[|]], b2 as [[|]|[|]]; reflexivity).
  rewrite (py_eq_sym y x), (bound_char_eqb_sym b2 b1).
  destruct (bound_char_eqb b1 b2 && py_eq x y); [reflexivity |].
  destruct (normalize_edge _ x _ _) as [x' i1];
    destruct (normalize_edge _ y _ _) as [y' i2].
  destruct (py_lt x' y') eqn:L1;
    [ rewrite (py_lt_asym _ _ L1); reflexivity |].
  destruct (py_lt y' x') eqn:L2; [ reflexivity |].
  destruct ov; [ reflexivity |].
  destruct i1, i2, b1 as [[|]|[|]], b2 as [[|]|[|]]; reflexivity.
Qed.

End EdgeFacts.

(** ** The combining operators: how they end *)

Section Outcomes.

Context {T : Type} `{Scalar T}.



Lemma union_raises (a b : Range T) :
  raises_ValueError (union a b)
  = negb (empty a) && negb (empty b)
    && (negb (overlaps a b) && negb (adjacent_to a b)).
Proof.
  unfold union.
  destruct (empty a); [reflexivity |].
  destruct (empty b); [reflexivity |].
  destruct (negb (overlaps a b) && negb (adjacent_to a b)); [reflexivity |].
  cbv zeta. split_ifs; reflexivity.
Qed.




End Outcomes.

(** ** Containment, overlap, adjacency *)

Section Relations.

Context {T : Type} `{Scalar T} `{!ScalarLaws T}.

Lemma opt_eqb_refl (v : option T) : opt_eqb v v = true.
Proof. destruct v; simpl; [apply py_eq_refl | reflexivity]. Qed.

Lemma Range_eqb_refl (r : Range T) : Range_eqb r r = true.
Proof.
  unfold Range_eqb.
  rewrite !opt_eqb_refl, bounds_eqb_refl, Bool.eqb_reflx. reflexivity.
Qed.

(** Every range is contained by itself. *)
Lemma contained_by_refl (r : Range T) : contained_by r r = true.
Proof.
  unfold contained_by. destruct (empty r); [reflexivity |].
  cbv zeta. rewrite !compare_edges_refl. reflexivity.
Qed.

(** The comparison of an edge of [b] with an edge of [a], made by [b],
    is the opposite of the comparison the other way round made by [a]. *)
Lemma compare_edges_flip (a b : Range T) va ba vb bb ov :
  edge_of a va -> edge_of b vb ->
  _compare_edges b vb bb va ba ov = - _compare_edges a va ba vb bb ov.
Proof.
  intros Ha Hb.
  rewrite (compare_edges_self_irrel b a) by auto.
  apply compare_edges_antisym.
Qed.

Lemma edge_of_lower (r : Range T) : edge_of r (lower r).
Proof. left; reflexivity. Qed.

Lemma edge_of_upper (r : Range T) : edge_of r (upper r).
Proof. right; reflexivity. Qed.

(** C4, amended: for ranges [a] and [b] over one scalar domain (the
    bound values are all [int], or none is), when [a.union(b)] returns
    [c], [c.contains(a)] and [c.contains(b)] are both true. *)
Theorem union_contains_operands (a b c : Range T) :
  union a b = Return c ->
  contains c (Sub a) = true /\ contains c (Sub b) = true.
Proof.
  unfold union, contains.
  destruct (empty a) eqn:Ea.
  { intros [= <-]. split; [| apply contained_by_refl].
    unfold contained_by. rewrite Ea. reflexivity. }
  destruct (empty b) eqn:Eb.
  { intros [= <-]. split; [apply contained_by_refl |].
    unfold contained_by. rewrite Eb. reflexivity. }
  destruct (negb (overlaps a b) && negb (adjacent_to a b)); [discriminate |].
  cbv zeta.
  pose proof (compare_edges_flip a b (lower a) (Lo (bounds0 a))
                (lower b) (Lo (bounds0 b)) false
                (edge_of_lower a) (edge_of_lower b)) as FL.
  pose proof (compare_edges_flip a b (upper a) (Up (bounds1 a))
                (upper b) (Up (bounds1 b)) false
                (edge_of_upper a) (edge_of_upper b)) as FU.
  destruct (_compare_edges a (lower a) (Lo (bounds0 a))
                           (lower b) (Lo (bounds0 b)) false <? 0) eqn:L;
    destruct (_compare_edges a (upper a) (Up (bounds1 a))
                             (upper b) (Up (bounds1 b)) false >? 0) eqn:U;
    intros [= <-]; unfold contained_by, bounds0, bounds1;
    cbn [lower upper bounds empty fst snd];
    fold (bounds0 a) (bounds0 b) (bounds1 a) (bounds1 b);
    rewrite Ea, Eb, ?compare_edges_refl, ?FL, ?FU, ?L, ?U;
    rewrite Z.gtb_ltb in U;
    rewrite ?Z.gtb_ltb;
    repeat match goal with
           | |- context [?x <? ?y] =>
               let E := fresh "E" in destruct (x <? y) eqn:E
           end;
    rewrite ?Z.ltb_lt, ?Z.ltb_ge in *; split; (reflexivity || lia).
Qed.

(** The adjacency test of an upper edge with a lower edge gives the same
    answer whichever of the two ranges makes it. *)
Lemma upper_edge_adjacent_self_irrel (a b : Range T) v1 b1 v2 b2 :
  edge_of a v1 \/ edge_of a v2 ->
  edge_of b v1 \/ edge_of b v2 ->
  _upper_edge_adjacent_to_lower a v1 b1 v2 b2
  = _upper_edge_adjacent_to_lower b v1 b1 v2 b2.
Proof.
  intros Ha Hb. unfold _upper_edge_adjacent_to_lower.
  rewrite (compare_edges_self_irrel a b) by assumption.
  destruct v1 as [x|], v2 as [y|]; try reflexivity.
  rewrite (same_step_of_shared_edges a b x y) by assumption.
  reflexivity.
Qed.

(** The comparison by value of an upper edge with a lower edge is [1]
    as soon as one of them is infinite: the branches of the adjacency
    test that compare or subtract values only see finite ones. *)
Lemma upper_lower_infinite (self : Range T) v1 b1 v2 b2 :
  v1 = None \/ v2 = None ->
  _compare_edges self v1 (Up b1) v2 (Lo b2) true = 1.
Proof.
  intros [-> | ->]; [destruct v2 | destruct v1]; reflexivity.
Qed.


(** C7, amended: for every range [r] and every empty range [e],
    [e.union(r) == r], [r.difference(e) == r], [e.difference(r) == e];
    [r.union(e) == r] when [r] is not empty, while for an empty [r] the
    call returns [e] itself; and every range, empty or not, contains
    itself. *)
Theorem empty_identity_laws (r e : Range T) :
  empty e = true ->
  returns_eq (union e r) r = true
  /\ returns_eq (difference r e) r = true
  /\ returns_eq (difference e r) e = true
  /\ returns_eq (union r e) (if empty r then e else r) = true
  /\ contains r (Sub r) = true.
Proof.
  intros Ee. unfold union, difference, contains.
  rewrite Ee, orb_true_r. cbn [orb returns_eq].
  destruct (empty r); cbn [returns_eq];
    rewrite !Range_eqb_refl, contained_by_refl; auto.
Qed.

End Relations.

(** ** Laws that need no assumption on the scalars *)

Section EmptyAndUnbounded.

Context {T : Type} `{Scalar T}.

(** C8, amended: the empty range [Range(None, None, empty=True)]
    contains no scalar; it contains a range exactly when that range is
    empty too; it overlaps no range and is adjacent to none. *)
Theorem empty_range_laws (x : T) (r : Range T) :
  contains empty_range (Value x) = false
  /\ contains empty_range (Sub r) = empty r
  /\ overlaps empty_range r = false
  /\ adjacent_to empty_range r = false.
Proof.
  unfold contains, contained_by, overlaps, adjacent_to, _contains_value.
  cbn. destruct (empty r); auto.
Qed.

(** C10: a range without bounds and not empty, whatever its [bounds]
    string, contains every scalar; the default [Range()] is one. *)
Theorem unbounded_contains_all (v : T) (b : bounds_lit) :
  contains (mkRange None None b false) (Value v) = true
  /\ contains Range_default (Value v) = true.
Proof.
  split; reflexivity.
Qed.

(** C9: [str] of a range is ["empty"] when the range is empty, and
    otherwise the lower bound character, the lower value (nothing for
    [None]), a comma, the upper value (nothing for [None]) and the upper
    bound character; [Range(10, 50, bounds="[)")] gives ["[10,50)"]. *)
Theorem stringify_canonical `{PyStr T} (l u : option T) (b0 : lower_char)
    (b1 : upper_char) :
  __str__ (mkRange l u (b0, b1) true) = "empty"%string
  /\ __str__ (mkRange l u (b0, b1) false)
     = (String (ascii_of_bound (Lo b0)) ""
        ++ match l with Some v => py_str v | None => "" end
        ++ ","
        ++ match u with Some v => py_str v | None => "" end
        ++ String (ascii_of_bound (Up b1)) "")%string
  /\ __str__ (IntRange 10 50 default_bounds) = "[10,50)"%string
  /\ __str__ (mkRange None (Some 5) default_bounds false) = "[,5)"%string
  /\ __str__ (mkRange (Some 1) None (LParen, RParen) false) = "(1,)"%string
  /\ __str__ (IntRange 1 5 (LBracket, RBracket)) = "[1,5]"%string.
Proof.
  repeat split.
Qed.

End EmptyAndUnbounded.

(** ** The integer domain *)

(** An [int] range with a finite bound has the step [1]. *)
Lemma int_discrete_step (self : Range Z) :
  lower self <> None \/ upper self <> None ->
  _get_discrete_step self = Some 1.
Proof.
  unfold _get_discrete_step.
  destruct (lower self), (upper self); cbn; intros [N | N];
    try reflexivity; contradiction.
Qed.

(** C6: with the step [1] of the integers, an exclusive lower edge and
    an inclusive upper edge are moved one step up before the values are
    compared, so that the lower edge [(v] compares equal to the lower
    edge [[v+1] (and [(0] to [[1]), and the upper edge [v]] to the upper
    edge [v+1)]; and [Range(0, 5, bounds="(]")] contains the same
    integers as [Range(1, 6, bounds="[)")]. *)
Theorem discrete_normalization (self : Range Z) (v x : Z) :
  _get_discrete_step self = Some 1 ->
  normalize_edge (_get_discrete_step self) v true false = (v + 1, true)
  /\ normalize_edge (_get_discrete_step self) v false true = (v + 1, false)
  /\ _compare_edges self (Some v) (Lo LParen) (Some (v + 1)) (Lo LBracket)
                    false = 0
  /\ _compare_edges self (Some v) (Up RBracket) (Some (v + 1)) (Up RParen)
                    false = 0
  /\ _compare_edges self (Some 0) (Lo LParen) (Some 1) (Lo LBracket)
                    false = 0
  /\ contains (IntRange 0 5 (LParen, RBracket)) (Value x)
     = contains (IntRange 1 6 (LBracket, RParen)) (Value x).
Proof.
  intros St.
  assert (C : forall w, _compare_edges self (Some w) (Lo LParen)
                          (Some (w + 1)) (Lo LBracket) false = 0).
  { intros w. unfold _compare_edges. rewrite St. cbn.
    rewrite Z.ltb_irrefl. reflexivity. }
  repeat split.
  - rewrite St. reflexivity.
  - rewrite St. reflexivity.
  - apply C.
  - unfold _compare_edges. rewrite St. cbn.
    rewrite Z.ltb_irrefl. reflexivity.
  - apply (C 0).
  - unfold contains, _contains_value, py_gt, py_ge. cbn.
    destruct (Z.ltb_spec 0 x), (Z.leb_spec 1 x), (Z.leb_spec x 5),
      (Z.ltb_spec x 6); cbn; try reflexivity; lia.
Qed.

Lemma discrete_normalization_witness :
  _compare_edges (IntRange 0 5 (LParen, RBracket))
                 (Some 0) (Lo LParen) (Some 1) (Lo LBracket) false = 0
  /\ contains (IntRange 0 5 (LParen, RBracket)) (Value 5)
     = contains (IntRange 1 6 (LBracket, RParen)) (Value 5).
Proof.
  pose proof (discrete_normalization (IntRange 0 5 (LParen, RBracket)) 0 5
                                     eq_refl) as W.
  split; [apply W | apply W].
Defined.

(** C1, at [Range(5, 20).difference(Range(1, 10))]: the right-trim case
    answers [Range(10, 20, bounds="()")], whose lower bound is exclusive
    although the upper bound of [other] is exclusive too: [10], which is
    in [self] and not in [other], is not in the answer. *)
Theorem difference_right_trim_excludes_bound :
  difference (IntRange 5 20 default_bounds) (IntRange 1 10 default_bounds)
  = Return (IntRange 10 20 (LParen, RParen))
  /\ contains (IntRange 5 20 default_bounds) (Value 10) = true
  /\ contains (IntRange 1 10 default_bounds) (Value 10) = false
  /\ contains (IntRange 10 20 (LParen, RParen)) (Value 10) = false.
Proof.
  repeat split.
Qed.

(** The scenario [Range(1, 10).difference(Range(5, 20))] of the left-trim
    case, and [Range(1, 10).union(Range(5, 15))]. *)
Example difference_left_trim_scenario :
  difference (IntRange 1 10 default_bounds) (IntRange 5 20 default_bounds)
  = Return (IntRange 1 5 default_bounds).
Proof. reflexivity. Qed.

Example union_overlapping_scenario :
  union (IntRange 1 10 default_bounds) (IntRange 5 15 default_bounds)
  = Return (IntRange 1 15 default_bounds).
Proof. reflexivity. Qed.

(** Without a discrete step the touching-edge test of the left-trim case
    fires on the one-point result: [Range(1, 5, bounds="[]")] minus
    [Range(1, 10, bounds="()")] is answered empty, although [1] is in
    the first and not in the second. *)
Example difference_left_trim_point_decimal :
  difference (mkRange (Some 1%Q) (Some 5%Q) (LBracket, RBracket) false)
             (mkRange (Some 1%Q) (Some 10%Q) (LParen, RParen) false)
  = Return (mkRange None None default_bounds true)
  /\ _contains_value
       (mkRange (Some 1%Q) (Some 5%Q) (LBracket, RBracket) false) 1%Q = true
  /\ _contains_value
       (mkRange (Some 1%Q) (Some 10%Q) (LParen, RParen) false) 1%Q = false.
Proof. repeat split. Qed.

(** C4 at [Range(1, 10).union(Range(5, 15))]. *)
Lemma union_contains_operands_witness :
  contains (IntRange 1 15 default_bounds) (Sub (IntRange 1 10 default_bounds))
  = true
  /\ contains (IntRange 1 15 default_bounds)
              (Sub (IntRange 5 15 default_bounds)) = true.
Proof.
  apply (union_contains_operands (IntRange 1 10 default_bounds)
                                 (IntRange 5 15 default_bounds)).
  reflexivity.
Defined.


(** C7, amended, at [Range(1, 10)] and the empty range. *)
Lemma empty_identity_laws_witness :
  returns_eq (union empty_range (IntRange 1 10 default_bounds))
             (IntRange 1 10 default_bounds) = true
  /\ returns_eq (difference (IntRange 1 10 default_bounds) empty_range)
                (IntRange 1 10 default_bounds) = true
  /\ returns_eq (difference empty_range (IntRange 1 10 default_bounds))
                empty_range = true
  /\ returns_eq (union (IntRange 1 10 default_bounds) empty_range)
                (IntRange 1 10 default_bounds) = true
  /\ contains (IntRange 1 10 default_bounds)
              (Sub (IntRange 1 10 default_bounds)) = true.
Proof.
  exact (empty_identity_laws (IntRange 1 10 default_bounds) empty_range
                             eq_refl).
Defined.

(** C7 as stated fails: [r.union(e) == r] does not hold for an empty
    [r] whose fields differ from those of [e], since the call returns
    [e]. *)
Lemma union_empty_right_not_identity :
  empty (empty_range : Range Z) = true
  /\ union (mkRange (Some 1) (Some 2) default_bounds true) empty_range
     = Return empty_range
  /\ returns_eq (union (mkRange (Some 1) (Some 2) default_bounds true)
                       empty_range)
                (mkRange (Some 1) (Some 2) default_bounds true) = false.
Proof.
  repeat split.
Qed.

(** C8 as stated fails: the empty range does not contain the non-empty
    [Range(1, 10)]. *)
Lemma empty_range_contains_no_nonempty_range :
  contains empty_range (Sub (IntRange 1 10 default_bounds)) = false.
Proof. reflexivity. Qed.

(** * Further properties of the algebra *)

(** ** Edge comparison as an order; the relations it defines *)

Section MoreRelations.

Context {T : Type} `{Scalar T} `{!ScalarLaws T}.

(** X1: [_compare_edges] answers [-1], [0] or [1]; exchanging the two
    edges negates the answer; an edge compares equal to itself. *)
Theorem compare_edges_order_laws (self : Range T) v1 b1 v2 b2 ov :
  (_compare_edges self v1 b1 v2 b2 ov = -1
   \/ _compare_edges self v1 b1 v2 b2 ov = 0
   \/ _compare_edges self v1 b1 v2 b2 ov = 1)
  /\ _compare_edges self v2 b2 v1 b1 ov = - _compare_edges self v1 b1 v2 b2 ov
  /\ _compare_edges self v1 b1 v1 b1 ov = 0.
Proof.
  split; [exact (compare_edges_sign self v1 b1 v2 b2 ov) |].
  split; [apply compare_edges_antisym | apply compare_edges_refl].
Qed.

(** X2: [a.strictly_left_of(b)] is [b.strictly_right_of(a)]. *)
Theorem strictly_left_right_converse (a b : Range T) :
  strictly_left_of a b = strictly_right_of b a.
Proof.
  unfold strictly_left_of, strictly_right_of.
  rewrite (orb_comm (empty b) (empty a)).
  destruct (empty a || empty b); [reflexivity |].
  rewrite (compare_edges_flip a b (upper a) (Up (bounds1 a))
             (lower b) (Lo (bounds0 b)) false
             (edge_of_upper a) (edge_of_lower b)).
  rewrite Z.gtb_ltb.
  destruct (Z.ltb_spec (_compare_edges a (upper a) (Up (bounds1 a))
                          (lower b) (Lo (bounds0 b)) false) 0);
    symmetry; [apply Z.ltb_lt | apply Z.ltb_ge]; lia.
Qed.

Lemma overlaps_comm (a b : Range T) : overlaps a b = overlaps b a.
Proof.
  unfold overlaps.
  destruct (empty a), (empty b); try reflexivity.
  cbn [orb]. cbv zeta.
  rewrite !(compare_edges_self_irrel b a) by (unfold edge_of; auto).
  destruct (_ && _), (_ && _); reflexivity.
Qed.

Lemma adjacent_to_comm (a b : Range T) : adjacent_to a b = adjacent_to b a.
Proof.
  unfold adjacent_to.
  destruct (empty a), (empty b); try reflexivity.
  cbn [orb]. cbv zeta.
  rewrite !(upper_edge_adjacent_self_irrel b a) by (unfold edge_of; auto).
  apply orb_comm.
Qed.

(** X3: for ranges over one scalar domain (the bound values are all
    [int], or none is), whether [union] raises does not depend on the
    order of its operands. *)
Theorem union_raises_symmetric (a b : Range T) :
  raises_ValueError (union a b) = raises_ValueError (union b a).
Proof.
  rewrite !union_raises, (overlaps_comm b a), (adjacent_to_comm b a).
  destruct (empty a), (empty b); reflexivity.
Qed.

(** A range overlaps itself when it is not empty and its lower edge is
    not after its upper edge. *)
Lemma overlaps_self (r : Range T) :
  overlaps r r
  = negb (empty r)
    && (_compare_edges r (lower r) (Lo (bounds0 r))
                       (upper r) (Up (bounds1 r)) false <=? 0).
Proof.
  unfold overlaps. destruct (empty r); [reflexivity |].
  cbn [orb negb andb]. cbv zeta.
  rewrite compare_edges_refl. cbn [Z.geb Z.compare andb].
  destruct (_ <=? 0); reflexivity.
Qed.

(** X4: for a range that overlaps itself (not empty, lower edge not
    after the upper edge), [r.union(r)] returns [r] and
    [r.difference(r)] returns the empty range. *)
Theorem union_difference_self (r : Range T) :
  overlaps r r = true ->
  union r r = Return r /\ difference r r = Return empty_range.
Proof.
  intros Ov. pose proof Ov as Ov'. rewrite overlaps_self in Ov'.
  apply andb_true_iff in Ov' as [Ne Le]. apply negb_true_iff in Ne.
  split.
  - unfold union. rewrite Ne, Ov. cbn [negb andb]. cbv zeta.
    rewrite !compare_edges_refl. cbn.
    destruct r as [l u [b0 b1] e]. cbn in *. subst e. reflexivity.
  - unfold difference. rewrite Ne. cbn [orb]. cbv zeta.
    rewrite !compare_edges_refl.
    rewrite (compare_edges_antisym r (lower r) (Lo (bounds0 r))
               (upper r) (Up (bounds1 r)) false).
    apply Z.leb_le in Le.
    pose proof (compare_edges_sign r (lower r) (Lo (bounds0 r))
                  (upper r) (Up (bounds1 r)) false) as S.
    cbv zeta in S.
    destruct S as [S | [S | S]]; rewrite S in *; try lia; reflexivity.
Qed.

End MoreRelations.

Section MoreNoLaws.

Context {T : Type} `{Scalar T}.

(** X5: [a.contained_by(b)] holds exactly when [a] is empty, or [a]
    extends neither to the left nor to the right of [b]. *)
Theorem contained_by_not_extend (a b : Range T) :
  contained_by a b
  = empty a || (not_extend_left_of a b && not_extend_right_of a b).
Proof.
  unfold contained_by, not_extend_left_of, not_extend_right_of.
  destruct (empty a); [reflexivity |].
  destruct (empty b); [reflexivity |].
  cbn [orb]. cbv zeta.
  rewrite Z.geb_leb, Z.gtb_ltb.
  destruct (Z.ltb_spec (_compare_edges a (lower a) (Lo (bounds0 a))
                          (lower b) (Lo (bounds0 b)) false) 0) as [L | L],
           (Z.ltb_spec 0 (_compare_edges a (upper a) (Up (bounds1 a))
                          (upper b) (Up (bounds1 b)) false)) as [U | U];
    symmetry; rewrite ?andb_true_iff, ?andb_false_iff, ?Z.leb_le, ?Z.leb_gt;
    try (split; lia); try (left; lia); try (right; lia).
Qed.

(** X6: [str(r)] is ["empty"] for the empty ranges only. *)
Theorem stringify_empty_iff `{PyStr T} (r : Range T) :
  __str__ r = "empty"%string <-> empty r = true.
Proof.
  unfold __str__, _stringify.
  destruct (empty r); [split; reflexivity |].
  destruct (bounds r) as [[|] b1]; cbn; split; discriminate.
Qed.

(** The adjacency test of two edges is false as soon as one is
    infinite. *)
Lemma upper_edge_adjacent_finite (self : Range T) v1 c1 v2 c2 :
  _upper_edge_adjacent_to_lower self v1 c1 v2 c2 = true ->
  v1 <> None /\ v2 <> None.
Proof.
  unfold _upper_edge_adjacent_to_lower.
  destruct v1, v2; cbn; try discriminate.
  intros _. split; discriminate.
Qed.

End MoreNoLaws.

(** ** The integers: edges as positions *)

Section IntEdges.

Variable self : Range Z.
Hypothesis St : _get_discrete_step self = Some 1.

Lemma compare_ll_int v1 c1 v2 c2 :
  _compare_edges self (Some v1) (Lo c1) (Some v2) (Lo c2) false
  = sign3 (lo_pos c1 v1) (lo_pos c2 v2).
Proof.
  unfold _compare_edges, sign3, py_gt. rewrite St.
  destruct c1, c2; cbn -[Z.ltb Z.eqb Z.add];
    try (destruct (Z.eqb_spec v1 v2);
         [subst; rewrite !Z.ltb_irrefl; reflexivity |]);
    cbn -[Z.ltb Z.eqb Z.add];
    repeat match goal with
           | |- context [?p <? ?q] => destruct (Z.ltb_spec p q)
           end; try reflexivity; lia.
Qed.

Lemma compare_uu_int v1 c1 v2 c2 :
  _compare_edges self (Some v1) (Up c1) (Some v2) (Up c2) false
  = sign3 (up_pos c1 v1) (up_pos c2 v2).
Proof.
  unfold _compare_edges, sign3, py_gt. rewrite St.
  destruct c1, c2; cbn -[Z.ltb Z.eqb Z.add];
    try (destruct (Z.eqb_spec v1 v2);
         [subst; rewrite !Z.ltb_irrefl; reflexivity |]);
    cbn -[Z.ltb Z.eqb Z.add];
    repeat match goal with
           | |- context [?p <? ?q] => destruct (Z.ltb_spec p q)
           end; try reflexivity; lia.
Qed.

(** At the same position an upper edge sorts before a lower edge. *)
Lemma compare_lu_int v1 c1 v2 c2 :
  _compare_edges self (Some v1) (Lo c1) (Some v2) (Up c2) false
  = if lo_pos c1 v1 <? up_pos c2 v2 then -1 else 1.
Proof.
  unfold _compare_edges, py_gt. rewrite St.
  destruct c1, c2; cbn -[Z.ltb Z.eqb Z.add];
    repeat match goal with
           | |- context [?p <? ?q] => destruct (Z.ltb_spec p q)
           end; try reflexivity; lia.
Qed.

Lemma compare_ul_int v1 c1 v2 c2 :
  _compare_edges self (Some v1) (Up c1) (Some v2) (Lo c2) false
  = if lo_pos c2 v2 <? up_pos c1 v1 then 1 else -1.
Proof.
  unfold _compare_edges, py_gt. rewrite St.
  destruct c1, c2; cbn -[Z.ltb Z.eqb Z.add];
    repeat match goal with
           | |- context [?p <? ?q] => destruct (Z.ltb_spec p q)
           end; try reflexivity; lia.
Qed.

End IntEdges.

(** Membership in a non-empty integer range, by positions. *)
Lemma contains_value_int (l u : option Z) c0 c1 (x : Z) :
  _contains_value (mkRange l u (c0, c1) false) x
  = match l with Some l => lo_pos c0 l <=? x | None => true end
    && match u with Some u => x <? up_pos c1 u | None => true end.
Proof.
  unfold _contains_value, py_gt, py_ge.
  destruct l, u, c0, c1; cbn -[Z.ltb Z.leb Z.add];
    repeat match goal with
           | |- context [?p <? ?q] => destruct (Z.ltb_spec p q)
           | |- context [?p <=? ?q] => destruct (Z.leb_spec p q)
           end; try reflexivity; lia.
Qed.

(** The bounds that [difference] gives its trimmed results. *)
Lemma up_pos_complement (c : lower_char) (v : Z) :
  up_pos (if lower_char_eqb c LBracket then RParen else RBracket) v
  = lo_pos c v.
Proof. destruct c; reflexivity. Qed.

Lemma lo_pos_right_trim (c : upper_char) (v : Z) :
  lo_pos (if upper_char_eqb c RBracket then LParen else LParen) v = v + 1.
Proof. destruct c; reflexivity. Qed.

(** The methods of two integer ranges whose bound values are known to be
    finite or not, in terms of positions. *)
Ltac int_view :=
  unfold difference, union, overlaps, contained_by, strictly_left_of,
    strictly_right_of, not_extend_left_of, not_extend_right_of,
    upward, downward, bounds0, bounds1;
  cbn [lower upper bounds empty fst snd orb andb negb];
  rewrite ?compare_ll_int, ?compare_uu_int, ?compare_lu_int,
    ?compare_ul_int by reflexivity;
  cbn -[Z.add Z.sub Z.ltb Z.leb Z.eqb Z.gtb Z.geb lo_pos up_pos sign3
        _contains_value];
  rewrite ?contains_value_int, ?up_pos_complement, ?lo_pos_right_trim;
  unfold sign3; sign_consts.

Ltac edge_view :=
  rewrite ?compare_ll_int, ?compare_uu_int, ?compare_lu_int,
    ?compare_ul_int by assumption;
  cbn -[Z.add Z.sub Z.ltb Z.leb Z.eqb Z.gtb Z.geb lo_pos up_pos sign3];
  unfold sign3.

Ltac split_le_premise :=
  repeat (match goal with
          | |- ?R -> _ =>
              match R with
              | context [?p <? ?q] =>
                  no_if p; no_if q; destruct (Z.ltb_spec p q)
              end
          end);
  let R := fresh "R" in intros R.

(** ** The integers: what the relations and operators say of members *)

(** X7: with the step [1], [_compare_edges] is transitive: it orders the
    edges, infinite ones included. *)
Theorem compare_edges_trans_int (self : Range Z) v1 b1 v2 b2 v3 b3 :
  _get_discrete_step self = Some 1 ->
  _compare_edges self v1 b1 v2 b2 false <= 0 ->
  _compare_edges self v2 b2 v3 b3 false <= 0 ->
  _compare_edges self v1 b1 v3 b3 false <= 0.
Proof.
  intros St.
  destruct v1 as [x1|], v2 as [x2|], v3 as [x3|],
    b1 as [c1|c1], b2 as [c2|c2], b3 as [c3|c3];
    edge_view; split_le_premise; split_le_premise;
    repeat match goal with
           | |- context [?p <? ?q] => destruct (Z.ltb_spec p q)
           end; lia.
Qed.

Lemma compare_edges_trans_int_witness :
  _compare_edges (IntRange 0 9 default_bounds)
                 (Some 2) (Up RBracket) (Some 7) (Up RParen) false <= 0.
Proof.
  apply (compare_edges_trans_int (IntRange 0 9 default_bounds)
           (Some 2) (Up RBracket) (Some 2) (Lo LParen) (Some 7) (Up RParen));
    [reflexivity | cbn; lia | cbn; lia].
Defined.

Lemma contained_by_sound_int_aux (a b : Range Z) (x : Z) :
  contained_by a b = true ->
  _contains_value a x = true -> _contains_value b x = true.
Proof.
  destruct a as [[al|] [au|] [ca0 ca1] [|]], b as [[bl|] [bu|] [cb0 cb1] [|]];
    try discriminate; try (intros _; discriminate);
    int_view; premise; premise; finish.
Qed.

(** X8: every integer of a range contained by another is in the other:
    [b.contains(a)] for a range [a] gives [b.contains(x)] for every
    integer [x] of [a]. *)
Theorem contained_by_sound_int (a b : Range Z) (x : Z) :
  contains b (Sub a) = true ->
  contains a (Value x) = true -> contains b (Value x) = true.
Proof.
  exact (contained_by_sound_int_aux a b x).
Qed.

Lemma contained_by_sound_int_witness :
  _contains_value (IntRange 1 10 default_bounds) 4 = true.
Proof.
  apply (contained_by_sound_int (IntRange 3 5 (LParen, RBracket))
                                (IntRange 1 10 default_bounds) 4);
    reflexivity.
Defined.

(** X9: [contained_by] is transitive on integer ranges. *)
Theorem contained_by_trans_int (a b c : Range Z) :
  contained_by a b = true -> contained_by b c = true ->
  contained_by a c = true.
Proof.
  destruct a as [[al|] [au|] [ca0 ca1] [|]], b as [[bl|] [bu|] [cb0 cb1] [|]],
    c as [[cl|] [cu|] [cc0 cc1] [|]];
    try reflexivity; try discriminate; try (intros _; discriminate);
    int_view; premise; premise; finish.
Qed.

Lemma contained_by_trans_int_witness :
  contained_by (IntRange 3 5 (LParen, RBracket))
               (mkRange None (Some 20) default_bounds false) = true.
Proof.
  apply (contained_by_trans_int (IntRange 3 5 (LParen, RBracket))
                                (IntRange 1 10 default_bounds)
                                (mkRange None (Some 20) default_bounds false));
    reflexivity.
Defined.

(** X10: every integer of a range strictly left of another is less than
    every integer of the other. *)
Theorem strictly_left_of_sound_int (a b : Range Z) (x y : Z) :
  strictly_left_of a b = true ->
  _contains_value a x = true -> _contains_value b y = true -> x < y.
Proof.
  destruct a as [[al|] [au|] [ca0 ca1] [|]], b as [[bl|] [bu|] [cb0 cb1] [|]];
    try discriminate;
    int_view; premise; premise; premise; finish.
Qed.

Lemma strictly_left_of_sound_int_witness : 4 < 5.
Proof.
  apply (strictly_left_of_sound_int (IntRange 1 5 default_bounds)
                                    (IntRange 5 9 default_bounds) 4 5);
    reflexivity.
Defined.

(** X11: a range that does not extend to the left of another has its
    integers in the other made unbounded above; one that does not extend
    to the right has them in the other made unbounded below. *)
Theorem not_extend_sound_int (a b : Range Z) (x : Z) :
  _contains_value a x = true ->
  (not_extend_left_of a b = true -> _contains_value (upward b) x = true)
  /\ (not_extend_right_of a b = true
      -> _contains_value (downward b) x = true).
Proof.
  intros Hx; split; intros Ne; revert Hx Ne;
    destruct a as [[al|] [au|] [ca0 ca1] [|]],
             b as [[bl|] [bu|] [cb0 cb1] [|]];
    try discriminate; try (intros _; discriminate);
    int_view; premise; premise; finish.
Qed.

Lemma not_extend_sound_int_witness :
  _contains_value (upward (IntRange 1 10 default_bounds)) 4 = true
  /\ _contains_value (downward (IntRange 1 10 default_bounds)) 4 = true.
Proof.
  destruct (not_extend_sound_int (IntRange 3 5 default_bounds)
                                 (IntRange 1 10 default_bounds) 4 eq_refl)
    as [L R].
  split; [apply L | apply R]; reflexivity.
Defined.

Lemma overlaps_complete_int_aux (a b : Range Z) (x : Z) :
  _contains_value a x = true -> _contains_value b x = true ->
  overlaps a b = true.
Proof.
  destruct a as [[al|] [au|] [ca0 ca1] [|]], b as [[bl|] [bu|] [cb0 cb1] [|]];
    try discriminate; try (intros _; discriminate);
    int_view; premise; premise; finish.
Qed.

(** X12: two ranges with an integer in common overlap: ranges that do
    not overlap have no integer in common. *)
Theorem overlaps_complete_int (a b : Range Z) (x : Z) :
  overlaps a b = false ->
  _contains_value a x && _contains_value b x = false.
Proof.
  intros N.
  destruct (_contains_value a x) eqn:Ha, (_contains_value b x) eqn:Hb;
    try reflexivity.
  rewrite (overlaps_complete_int_aux a b x Ha Hb) in N. discriminate N.
Qed.

Lemma overlaps_complete_int_witness :
  _contains_value (IntRange 1 5 default_bounds) 5
  && _contains_value (IntRange 5 9 default_bounds) 5 = false.
Proof.
  apply (overlaps_complete_int (IntRange 1 5 default_bounds)
                               (IntRange 5 9 default_bounds) 5).
  reflexivity.
Defined.

(** X13: two overlapping ranges that each have an integer have one in
    common. *)
Theorem overlaps_sound_int (a b : Range Z) (x y : Z) :
  overlaps a b = true ->
  _contains_value a x = true -> _contains_value b y = true ->
  exists z, _contains_value a z = true /\ _contains_value b z = true.
Proof.
  intros Ov Hx Hy. exists (common_point a b).
  revert Ov Hx Hy. unfold common_point.
  destruct a as [[al|] [au|] [ca0 ca1] [|]], b as [[bl|] [bu|] [cb0 cb1] [|]];
    try discriminate;
    int_view; premise; premise; premise; split; finish.
Qed.

Lemma overlaps_sound_int_witness :
  exists z, _contains_value (IntRange 1 10 default_bounds) z = true
            /\ _contains_value (IntRange 5 20 default_bounds) z = true.
Proof.
  apply (overlaps_sound_int (IntRange 1 10 default_bounds)
                            (IntRange 5 20 default_bounds) 1 19);
    reflexivity.
Defined.

(** X14: a range overlaps itself exactly when it has an integer: the
    ranges whose lower edge is past their upper edge, as
    [Range(5, 1)], do not. *)
Theorem overlaps_self_int (r : Range Z) :
  (overlaps r r = true <-> exists x, _contains_value r x = true)
  /\ overlaps (IntRange 5 1 default_bounds) (IntRange 5 1 default_bounds)
     = false.
Proof.
  split; [split |].
  - intros Ov. exists (common_point r r). revert Ov. unfold common_point.
    destruct r as [[l|] [u|] [c0 c1] [|]]; try discriminate;
      int_view; premise; finish.
  - intros [x Hx]. revert Hx.
    destruct r as [[l|] [u|] [c0 c1] [|]]; try discriminate;
      int_view; premise; finish.
  - reflexivity.
Qed.

(** ** The integers: what [union] and [difference] return *)

(** X15: the union of two overlapping ranges has exactly the integers of
    the one or the other. *)
Theorem union_overlapping_int (a b c : Range Z) (x : Z) :
  overlaps a b = true ->
  union a b = Return c ->
  _contains_value c x = _contains_value a x || _contains_value b x.
Proof.
  intros Ov. unfold union. rewrite Ov. cbn [negb andb]. revert Ov.
  destruct a as [[al|] [au|] [ca0 ca1] [|]], b as [[bl|] [bu|] [cb0 cb1] [|]];
    try discriminate;
    int_view; premise; premise; injection R0 as <-;
    rewrite ?contains_value_int; finish.
Qed.

Lemma union_overlapping_int_witness :
  _contains_value (IntRange 1 15 default_bounds) 12
  = _contains_value (IntRange 1 10 default_bounds) 12
    || _contains_value (IntRange 5 15 default_bounds) 12.
Proof.
  apply (union_overlapping_int (IntRange 1 10 default_bounds)
                               (IntRange 5 15 default_bounds));
    reflexivity.
Defined.

(** X16: whenever [union] returns, overlapping operands or adjacent
    ones, the result has every integer of either operand. *)
Theorem union_superset_int (a b c : Range Z) (x : Z) :
  union a b = Return c ->
  _contains_value a x || _contains_value b x = true ->
  _contains_value c x = true.
Proof.
  unfold union.
  destruct a as [[al|] [au|] [ca0 ca1] [|]], b as [[bl|] [bu|] [cb0 cb1] [|]];
    cbn [empty];
    try (intros [= <-]; cbn [_contains_value empty orb];
         rewrite ?orb_false_r; intros R; exact R);
    (destruct (negb _ && negb _); [discriminate |]);
    int_view; premise; injection R as <-;
    rewrite ?contains_value_int; premise; finish.
Qed.

Lemma union_superset_int_witness :
  _contains_value (IntRange 1 9 default_bounds) 7 = true.
Proof.
  apply (union_superset_int (IntRange 1 5 default_bounds)
                            (IntRange 5 9 default_bounds));
    reflexivity.
Defined.

(** X17: [difference] never returns an integer that is not in [self] or
    that is in [other]. *)
Theorem difference_subset_int (a b c : Range Z) (x : Z) :
  difference a b = Return c ->
  _contains_value c x = true ->
  _contains_value a x = true /\ _contains_value b x = false.
Proof.
  destruct a as [[al|] [au|] [ca0 ca1] [|]], b as [[bl|] [bu|] [cb0 cb1] [|]];
    try (intros [= <-]; discriminate);
    try (intros [= <-]; intros ->; split; reflexivity);
    int_view; premise; injection R as <-;
    rewrite ?contains_value_int, ?up_pos_complement, ?lo_pos_right_trim;
    try discriminate;
    premise; split; finish.
Qed.

Lemma difference_subset_int_witness :
  _contains_value (IntRange 5 20 default_bounds) 15 = true
  /\ _contains_value (IntRange 1 10 default_bounds) 15 = false.
Proof.
  apply (difference_subset_int (IntRange 5 20 default_bounds)
                               (IntRange 1 10 default_bounds)
                               (IntRange 10 20 (LParen, RParen)));
    reflexivity.
Defined.

(** X18: on the integers the right-trim case with an exclusive upper
    bound of [other] is the only one where [difference] is not the set
    difference: when [other]'s upper bound is inclusive, or [self]'s
    upper edge does not pass [other]'s, the range returned contains
    exactly the integers of [self] that are not in [other]. *)
Theorem difference_sound_int (a b c : Range Z) (x : Z) :
  empty a = false -> empty b = false ->
  difference a b = Return c ->
  bounds1 b = RBracket
  \/ _compare_edges a (upper a) (Up (bounds1 a))
                    (upper b) (Up (bounds1 b)) false <= 0 ->
  _contains_value c x = _contains_value a x && negb (_contains_value b x).
Proof.
  destruct a as [[al|] [au|] [ca0 ca1] ea], b as [[bl|] [bu|] [cb0 cb1] eb];
    cbn [empty]; intros -> ->;
    int_view; premise; injection R as <-;
    rewrite ?contains_value_int, ?up_pos_complement, ?lo_pos_right_trim;
    (intros [G | G]; [cbn in G; subst cb1 | try lia]);
    finish.
Qed.

Lemma difference_sound_int_witness :
  _contains_value (IntRange 1 5 default_bounds) 4
  = _contains_value (IntRange 1 10 default_bounds) 4
    && negb (_contains_value (IntRange 5 20 default_bounds) 4).
Proof.
  apply (difference_sound_int (IntRange 1 10 default_bounds)
                              (IntRange 5 20 default_bounds));
    [reflexivity | reflexivity | reflexivity | right; cbn; lia].
Defined.

(** ** Adjacency *)

(** With the step [1], the configurations in which an upper edge is
    found adjacent to a lower edge. *)
Lemma upper_edge_adjacent_int_cases (self : Range Z) v1 c1 v2 c2 :
  _get_discrete_step self = Some 1 ->
  _upper_edge_adjacent_to_lower self v1 c1 v2 c2 = true ->
  exists u l, v1 = Some u /\ v2 = Some l
    /\ ((c1 = RParen /\ c2 = LBracket /\ u = l)
        \/ (c1 = RBracket /\ c2 = LParen /\ u = l)
        \/ (c1 = RParen /\ c2 = LParen /\ u = l - 1)).
Proof.
  intros St. unfold _upper_edge_adjacent_to_lower.
  destruct v1 as [u|], v2 as [l|]; try (cbn; discriminate).
  unfold _compare_edges, py_gt. rewrite St.
  destruct c1, c2; cbn -[Z.ltb Z.eqb Z.add Z.sub];
    repeat match goal with
           | |- context [?p <? ?q] =>
               no_if p; no_if q; destruct (Z.ltb_spec p q)
           end;
    cbn -[Z.ltb Z.eqb Z.add Z.sub];
    intros E; exists u, l; (split; [reflexivity |]);
    (split; [reflexivity |]);
    try discriminate E; try (apply Z.eqb_eq in E);
    try (left; repeat split; lia);
    try (right; left; repeat split; lia);
    try (right; right; repeat split; lia); lia.
Qed.

(** X19: on the integers an upper edge [u] and a lower edge [l] are
    found adjacent exactly when both are finite and either [u = l] with
    one of the two bounds inclusive and the other exclusive, or both
    bounds are exclusive and [u = l - 1]; two inclusive bounds are never
    found adjacent, as with [Range(1, 5, bounds="[]")] and
    [Range(6, 10, bounds="[]")]. *)
Theorem upper_edge_adjacent_int (self : Range Z) v1 c1 v2 c2 :
  _get_discrete_step self = Some 1 ->
  (_upper_edge_adjacent_to_lower self v1 c1 v2 c2 = true <->
   exists u l, v1 = Some u /\ v2 = Some l
     /\ ((c1 = RParen /\ c2 = LBracket /\ u = l)
         \/ (c1 = RBracket /\ c2 = LParen /\ u = l)
         \/ (c1 = RParen /\ c2 = LParen /\ u = l - 1)))
  /\ adjacent_to (IntRange 1 5 (LBracket, RBracket))
                 (IntRange 6 10 (LBracket, RBracket)) = false.
Proof.
  intros St. split; [split |].
  - apply upper_edge_adjacent_int_cases. exact St.
  - intros (u & l & -> & -> & Cases).
    unfold _upper_edge_adjacent_to_lower, _compare_edges, py_gt.
    rewrite St.
    destruct Cases as [(-> & -> & ->) | [(-> & -> & ->) | (-> & -> & ->)]];
      cbn -[Z.ltb Z.eqb Z.add Z.sub];
      repeat match goal with
             | |- context [?p <? ?q] =>
                 no_if p; no_if q; destruct (Z.ltb_spec p q)
             end;
      cbn -[Z.ltb Z.eqb Z.add Z.sub];
      try reflexivity; try lia; apply Z.eqb_eq; lia.
  - reflexivity.
Qed.

Lemma upper_edge_adjacent_int_witness :
  _upper_edge_adjacent_to_lower (IntRange 1 4 default_bounds)
                                (Some 4) RParen (Some 5) LParen = true.
Proof.
  apply (upper_edge_adjacent_int (IntRange 1 4 default_bounds)
                                 (Some 4) RParen (Some 5) LParen eq_refl).
  exists 4, 5. split; [reflexivity |]. split; [reflexivity |].
  right; right. repeat split.
Defined.

(** X20: two integer ranges found adjacent have no integer in common. *)
Theorem adjacent_disjoint_int (a b : Range Z) (x : Z) :
  adjacent_to a b = true ->
  _contains_value a x = true -> _contains_value b x = false.
Proof.
  unfold adjacent_to.
  destruct (empty a) eqn:Ea; [discriminate |].
  destruct (empty b) eqn:Eb; [discriminate |].
  cbn [orb]. cbv zeta. intros Adj.
  assert (St : _get_discrete_step a = Some 1).
  { apply int_discrete_step.
    apply orb_true_iff in Adj as [Adj | Adj];
      apply upper_edge_adjacent_finite in Adj as [N1 N2]; auto. }
  destruct a as [la ua [ca0 ca1] ea], b as [lb ub [cb0 cb1] eb].
  cbn [empty lower upper bounds bounds0 bounds1 fst snd] in *. subst ea eb.
  rewrite !contains_value_int. intros Hx.
  apply andb_true_iff in Hx as [Hl Hu].
  apply orb_true_iff in Adj as [Adj | Adj];
    apply (upper_edge_adjacent_int_cases _ _ _ _ _ St) in Adj
      as (u & l & -> & -> & Cases).
  - apply andb_false_iff. left. apply Z.leb_gt. apply Z.ltb_lt in Hu.
    destruct Cases as [(-> & -> & ->) | [(-> & -> & ->) | (-> & -> & ->)]];
      unfold lo_pos, up_pos in *; lia.
  - apply andb_false_iff. right. apply Z.ltb_ge. apply Z.leb_le in Hl.
    destruct Cases as [(-> & -> & ->) | [(-> & -> & ->) | (-> & -> & ->)]];
      unfold lo_pos, up_pos in *; lia.
Qed.

Lemma adjacent_disjoint_int_witness :
  _contains_value (IntRange 5 9 default_bounds) 4 = false.
Proof.
  apply (adjacent_disjoint_int (IntRange 1 5 default_bounds)
                               (IntRange 5 9 default_bounds) 4);
    reflexivity.
Defined.

(** Without a discrete step: the decimal ranges. *)
Lemma decimal_no_step (self : Range Q) : _get_discrete_step self = None.
Proof.
  unfold _get_discrete_step. destruct (lower self), (upper self); reflexivity.
Qed.

Lemma Qlt_bool_iff (x y : Q) : Qlt_bool x y = true <-> (x < y)%Q.
Proof.
  unfold Qlt_bool. rewrite negb_true_iff. split.
  - intros E. apply Qnot_le_lt. intros L.
    apply Qle_bool_iff in L. congruence.
  - intros L. destruct (Qle_bool y x) eqn:E; [| reflexivity].
    apply Qle_bool_iff in E. exfalso. exact (Qlt_not_le _ _ L E).
Qed.

(** X21: without a discrete step an upper edge [u] and a lower edge [l]
    are found adjacent exactly when [u] equals [l] and one of the two
    bounds is inclusive, the other exclusive. *)
Theorem upper_edge_adjacent_decimal (self : Range Q) (u l : Q) c1 c2 :
  _upper_edge_adjacent_to_lower self (Some u) c1 (Some l) c2 = true <->
  (u == l)%Q
  /\ ((c1 = RParen /\ c2 = LBracket) \/ (c1 = RBracket /\ c2 = LParen)).
Proof.
  unfold _upper_edge_adjacent_to_lower, _compare_edges, normalize_edge, py_gt.
  rewrite decimal_no_step. cbn [in_lower_set bound_char_eqb andb].
  change (@py_lt Q decimal_scalar) with Qlt_bool.
  destruct (Qlt_bool u l) eqn:L1.
  { cbn. apply Qlt_bool_iff in L1. split; [discriminate |].
    intros [E _]. rewrite E in L1. exfalso. exact (Qlt_irrefl _ L1). }
  destruct (Qlt_bool l u) eqn:L2.
  { cbn. apply Qlt_bool_iff in L2. split; [discriminate |].
    intros [E _]. rewrite E in L2. exfalso. exact (Qlt_irrefl _ L2). }
  assert (E : (u == l)%Q).
  { apply Qle_antisym; apply Qnot_lt_le; intros L;
      apply Qlt_bool_iff in L; congruence. }
  cbn. destruct c1, c2; split; try discriminate; auto;
    intros [_ [[? ?] | [? ?]]]; discriminate.
Qed.

(** ** The generic properties on the integers *)

Lemma compare_edges_order_laws_witness :
  (_compare_edges (IntRange 0 9 default_bounds)
                  (Some 3) (Lo LParen) (Some 7) (Up RParen) false = -1
   \/ _compare_edges (IntRange 0 9 default_bounds)
                     (Some 3) (Lo LParen) (Some 7) (Up RParen) false = 0
   \/ _compare_edges (IntRange 0 9 default_bounds)
                     (Some 3) (Lo LParen) (Some 7) (Up RParen) false = 1)
  /\ _compare_edges (IntRange 0 9 default_bounds)
                    (Some 7) (Up RParen) (Some 3) (Lo LParen) false
     = - _compare_edges (IntRange 0 9 default_bounds)
                        (Some 3) (Lo LParen) (Some 7) (Up RParen) false
  /\ _compare_edges (IntRange 0 9 default_bounds)
                    (Some 3) (Lo LParen) (Some 3) (Lo LParen) false = 0.
Proof.
  exact (compare_edges_order_laws (IntRange 0 9 default_bounds)
           (Some 3) (Lo LParen) (Some 7) (Up RParen) false).
Defined.

Lemma strictly_left_right_converse_witness :
  strictly_left_of (IntRange 1 5 default_bounds) (IntRange 5 9 default_bounds)
  = strictly_right_of (IntRange 5 9 default_bounds)
                      (IntRange 1 5 default_bounds).
Proof.
  exact (strictly_left_right_converse (IntRange 1 5 default_bounds)
                                      (IntRange 5 9 default_bounds)).
Defined.

Lemma union_raises_symmetric_witness :
  raises_ValueError (union (IntRange 1 10 default_bounds)
                           (IntRange 20 30 default_bounds))
  = raises_ValueError (union (IntRange 20 30 default_bounds)
                             (IntRange 1 10 default_bounds)).
Proof.
  exact (union_raises_symmetric (IntRange 1 10 default_bounds)
                                (IntRange 20 30 default_bounds)).
Defined.

Lemma union_difference_self_witness :
  union (IntRange 1 10 default_bounds) (IntRange 1 10 default_bounds)
  = Return (IntRange 1 10 default_bounds)
  /\ difference (IntRange 1 10 default_bounds) (IntRange 1 10 default_bounds)
     = Return empty_range.
Proof.
  apply (union_difference_self (IntRange 1 10 default_bounds)).
  reflexivity.
Defined.

(** ** Operands that are apart, operands that are nested *)

(** X22: subtracting a range that has an integer and lies strictly to
    one side of [self] returns [self]. *)
Theorem difference_apart_int (a b : Range Z) (y : Z) :
  strictly_left_of a b = true \/ strictly_right_of a b = true ->
  _contains_value b y = true ->
  difference a b = Return a.
Proof.
  intros [S | S]; revert S;
    destruct a as [[al|] [au|] [ca0 ca1] [|]],
             b as [[bl|] [bu|] [cb0 cb1] [|]];
    try discriminate;
    int_view; premise; premise; finish.
Qed.

Lemma difference_apart_int_witness :
  difference (IntRange 1 5 default_bounds) (IntRange 5 9 default_bounds)
  = Return (IntRange 1 5 default_bounds).
Proof.
  apply (difference_apart_int (IntRange 1 5 default_bounds)
                              (IntRange 5 9 default_bounds) 6);
    [left; reflexivity | reflexivity].
Defined.

(** X23: for a range [a] that has an integer and is contained by [b],
    [a.difference(b)] is the empty range and [a.union(b)] is [b]. *)
Theorem nested_operands_int (a b : Range Z) (x : Z) :
  contained_by a b = true ->
  _contains_value a x = true ->
  difference a b = Return empty_range /\ union a b = Return b.
Proof.
  intros C Hx.
  assert (Ov : overlaps a b = true).
  { apply (overlaps_complete_int_aux a b x); [exact Hx |].
    exact (contained_by_sound_int_aux a b x C Hx). }
  unfold union. rewrite Ov. cbn [negb andb]. clear Ov. revert C Hx.
  destruct a as [[al|] [au|] [ca0 ca1] [|]], b as [[bl|] [bu|] [cb0 cb1] [|]];
    try discriminate;
    int_view; premise; premise; split; finish.
Qed.

Lemma nested_operands_int_witness :
  difference (IntRange 3 5 default_bounds) (IntRange 1 10 default_bounds)
  = Return empty_range
  /\ union (IntRange 3 5 default_bounds) (IntRange 1 10 default_bounds)
     = Return (IntRange 1 10 default_bounds).
Proof.
  apply (nested_operands_int (IntRange 3 5 default_bounds)
                             (IntRange 1 10 default_bounds) 4);
    reflexivity.
Defined.

(** ** Ranges of [int] against ranges of [Decimal] *)

(** The step is read from [self] alone: an [int] range compares edges
    with the step [1], a [Decimal] range without a step, also when the
    other operand is of the other kind. *)
Example mixed_steps :
  _get_discrete_step (mkRange (Some (PyInt 0)) (Some (PyInt 1))
                              (LParen, RParen) false) = Some (PyInt 1)
  /\ _get_discrete_step (mkRange (Some (PyDecimal 0)) (Some (PyDecimal 1))
                                 (LParen, RParen) false) = None.
Proof. split; reflexivity. Qed.

(** C4 as stated fails: [Range(1, 10).union(Range(Decimal("0.5"),
    Decimal(5), bounds="()"))] returns [Range(1, 10)], which does not
    contain the second operand. *)
Lemma union_mixed_misses_operand :
  union (mkRange (Some (PyInt 1)) (Some (PyInt 10)) default_bounds false)
        (mkRange (Some (PyDecimal (1 # 2))) (Some (PyDecimal 5))
                 (LParen, RParen) false)
  = Return (mkRange (Some (PyInt 1)) (Some (PyInt 10)) default_bounds false)
  /\ contains
       (mkRange (Some (PyInt 1)) (Some (PyInt 10)) default_bounds false)
       (Sub (mkRange (Some (PyDecimal (1 # 2))) (Some (PyDecimal 5))
                     (LParen, RParen) false))
     = false.
Proof. split; reflexivity. Qed.


(** On the same pair [union] raises one way and returns the other: the
    order of the operands matters as soon as the two kinds meet. *)
Example union_mixed_raises_one_way :
  raises_ValueError
    (union (mkRange (Some (PyInt 0)) (Some (PyInt 1)) (LParen, RParen) false)
           (mkRange (Some (PyDecimal 0)) (Some (PyDecimal 1))
                    (LParen, RParen) false)) = true
  /\ raises_ValueError
       (union (mkRange (Some (PyDecimal 0)) (Some (PyDecimal 1))
                       (LParen, RParen) false)
              (mkRange (Some (PyInt 0)) (Some (PyInt 1))
                       (LParen, RParen) false)) = false.
Proof. split; reflexivity. Qed.
